(** * AccountEntity (msal-common, cache/entities/AccountEntity.ts)

  A shallow embedding of the account cache entity: the two key
  derivations ([generateAccountId], [generateAccountKey] /
  [generateAccountCacheKey]), the cache type classification
  ([generateType]), the public projection ([getAccountInfo]) and the two
  factories ([createAccount], [createADFSAccount]).

  JavaScript values that the code reads may be absent, so every field and
  argument that the code treats as "a string or nothing" is a [js string]:
  [undefined], [null] or a value.  Code that can throw returns a [result].
  A string is a sequence of UTF-16 code units; the model covers the code
  units below 256, which is what [ascii] enumerates. *)

From Stdlib Require Import String Ascii List ZArith Bool Arith Lia.
Import ListNotations.
Open Scope string_scope.

(* ------------------------------------------------------------------ *)
(** ** The fragment of JavaScript the entity relies on *)

Module JS.

(** A JavaScript value of static type [A] as seen at run time. *)
Inductive js (A : Type) : Type :=
| undefined : js A
| null : js A
| val (a : A) : js A.
Arguments undefined {A}.
Arguments null {A}.
Arguments val {A} a.

(** What a thrown exception carries: the property whose read failed for a
    TypeError, or whatever a collaborator threw. *)
Inductive exn : Type :=
| TypeError (reading : string)
| Thrown (what : string).

Inductive result (A : Type) : Type :=
| Ok (a : A)
| Throw (e : exn).
Arguments Ok {A} a.
Arguments Throw {A} e.

Definition bind {A B : Type} (m : result A) (k : A -> result B) : result B :=
  match m with
  | Ok a => k a
  | Throw e => Throw e
  end.

(** [x.p] for an object [x]: reading a property of [undefined] or [null]
    throws a TypeError. *)
Definition getProp {A B : Type} (x : js A) (p : string) (proj : A -> B)
  : result B :=
  match x with
  | val a => Ok (proj a)
  | _ => Throw (TypeError p)
  end.

(** ToString on a string-or-nothing, as applied by [+] with a string
    operand and by template literals. *)
Definition toString (x : js string) : string :=
  match x with
  | undefined => "undefined"
  | null => "null"
  | val s => s
  end.

(** ToBoolean. *)
Definition truthyString (x : js string) : bool :=
  match x with
  | val s => negb (s =? "")
  | _ => false
  end.

Definition truthyObject {A : Type} (x : js A) : bool :=
  match x with
  | val _ => true
  | _ => false
  end.

(** [x || ""]. *)
Definition orEmpty (x : js string) : js string :=
  if truthyString x then x else val "".

(** [x !== null]. *)
Definition notNull {A : Type} (x : js A) : bool :=
  match x with
  | null => false
  | _ => true
  end.

(** [x === c] for a string constant [c]. *)
Definition strictEqStr (x : js string) (c : string) : bool :=
  match x with
  | val s => s =? c
  | _ => false
  end.

(** [arr.includes(x)] for an array of strings. *)
Definition includes (arr : list string) (x : js string) : bool :=
  existsb (strictEqStr x) arr.

(** [arr.join(sep)]: [undefined] and [null] elements print as the empty
    string. *)
Definition joinElem (x : js string) : string :=
  match x with
  | val s => s
  | _ => ""
  end.

Fixpoint join (arr : list (js string)) (sep : string) : string :=
  match arr with
  | [] => ""
  | [x] => joinElem x
  | x :: rest => joinElem x ++ sep ++ join rest sep
  end.

(** [s.toLowerCase()], code unit by code unit: A-Z, and the Latin-1
    capitals U+00C0-U+00DE except the multiplication sign U+00D7, move up
    by 32; every other code unit below 256 is its own lower case. *)
Definition toLowerChar (c : ascii) : ascii :=
  let n := nat_of_ascii c in
  if (((65 <=? n) && (n <=? 90))
      || ((192 <=? n) && (n <=? 222) && negb (n =? 215)))%nat
  then ascii_of_nat (n + 32)
  else c.

Fixpoint toLowerCase (s : string) : string :=
  match s with
  | EmptyString => EmptyString
  | String c rest => String (toLowerChar c) (toLowerCase rest)
  end.

End JS.
Import JS.

Notation "x <- m ;; k" := (bind m (fun x => k))
(at level 61, m at next level, right associativity).

(* ------------------------------------------------------------------ *)
(** ** utils/Constants

  The constants module is not among the sources; the entity is
  modelled over an arbitrary assignment of the constants it imports. *)

Module Constants.

Record t : Type := {
  (* Separators *)
  CACHE_KEY_SEPARATOR : string;
  CLIENT_INFO_SEPARATOR : string;
  (* CacheAccountType *)
  ADFS_ACCOUNT_TYPE : string;
  MSAV1_ACCOUNT_TYPE : string;
  MSSTS_ACCOUNT_TYPE : string;
  GENERIC_ACCOUNT_TYPE : string;
  (* CacheType *)
  ADFS : Z;
  MSA : Z;
  MSSTS : Z;
  GENERIC : Z;
  EnvironmentAliases : list string;
  PreferredCacheEnvironment : string
}.

Definition accountTypes (K : t) : list string :=
  [ADFS_ACCOUNT_TYPE K; MSAV1_ACCOUNT_TYPE K;
   MSSTS_ACCOUNT_TYPE K; GENERIC_ACCOUNT_TYPE K].

End Constants.

(* ------------------------------------------------------------------ *)
(** ** The collaborators' shapes *)

Module AccountInfo.
Record t : Type := {
  homeAccountId : js string;
  environment : js string;
  tenantId : js string;
  username : js string
}.

(** The object literal [{homeAccountId, environment, tenantId, username}]. *)
Definition make (h e r u : js string) : t :=
  {| homeAccountId := h; environment := e; tenantId := r; username := u |}.
End AccountInfo.

Module IdToken.
Record IdTokenClaims : Type := {
  tid : js string;
  oid : js string;
  sid : js string;
  preferred_username : js string;
  name : js string;
  sub : js string;
  upn : js string
}.
Record t : Type := { claims : IdTokenClaims }.
End IdToken.

Module Authority.
Record IUri : Type := { HostNameAndPort : js string }.
Record t : Type := { canonicalAuthorityUrlComponents : IUri }.

(** An authority whose canonical URL has the given host (and port). *)
Definition withHost (host : js string) : t :=
  {| canonicalAuthorityUrlComponents := {| HostNameAndPort := host |} |}.
End Authority.

Module ClientInfo.
Record t : Type := { uid : js string; utid : js string }.
End ClientInfo.

Module StringUtils.
(** Modelled from the spec: utils/StringUtils is not among the sources.
    The spec's "non-empty" claim is one that is present and has at least
    one character; [isEmpty] is its negation. *)
Definition isEmpty (str : js string) : bool :=
  match str with
  | val s => s =? ""
  | _ => true
  end.
End StringUtils.

(* ------------------------------------------------------------------ *)
(** ** AccountEntity *)

Module AccountEntity.

Record t : Type := {
  homeAccountId : js string;
  environment : js string;
  realm : js string;
  localAccountId : js string;
  username : js string;
  authorityType : js string;
  name : js string;
  clientInfo : js string;
  lastModificationTime : js string;
  lastModificationApp : js string
}.

(** [new AccountEntity()]: no field has been assigned yet. *)
Definition new : t :=
  {| homeAccountId := undefined; environment := undefined;
     realm := undefined; localAccountId := undefined;
     username := undefined; authorityType := undefined;
     name := undefined; clientInfo := undefined;
     lastModificationTime := undefined; lastModificationApp := undefined |}.

(** Field assignments [account.f = v]. *)
Definition set_homeAccountId (a : t) (v : js string) : t :=
  {| homeAccountId := v; environment := environment a; realm := realm a;
     localAccountId := localAccountId a; username := username a;
     authorityType := authorityType a; name := name a;
     clientInfo := clientInfo a;
     lastModificationTime := lastModificationTime a;
     lastModificationApp := lastModificationApp a |}.

Definition set_environment (a : t) (v : js string) : t :=
  {| homeAccountId := homeAccountId a; environment := v; realm := realm a;
     localAccountId := localAccountId a; username := username a;
     authorityType := authorityType a; name := name a;
     clientInfo := clientInfo a;
     lastModificationTime := lastModificationTime a;
     lastModificationApp := lastModificationApp a |}.

Definition set_realm (a : t) (v : js string) : t :=
  {| homeAccountId := homeAccountId a; environment := environment a;
     realm := v;
     localAccountId := localAccountId a; username := username a;
     authorityType := authorityType a; name := name a;
     clientInfo := clientInfo a;
     lastModificationTime := lastModificationTime a;
     lastModificationApp := lastModificationApp a |}.

Definition set_localAccountId (a : t) (v : js string) : t :=
  {| homeAccountId := homeAccountId a; environment := environment a;
     realm := realm a;
     localAccountId := v; username := username a;
     authorityType := authorityType a; name := name a;
     clientInfo := clientInfo a;
     lastModificationTime := lastModificationTime a;
     lastModificationApp := lastModificationApp a |}.

Definition set_username (a : t) (v : js string) : t :=
  {| homeAccountId := homeAccountId a; environment := environment a;
     realm := realm a;
     localAccountId := localAccountId a; username := v;
     authorityType := authorityType a; name := name a;
     clientInfo := clientInfo a;
     lastModificationTime := lastModificationTime a;
     lastModificationApp := lastModificationApp a |}.

Definition set_authorityType (a : t) (v : js string) : t :=
  {| homeAccountId := homeAccountId a; environment := environment a;
     realm := realm a;
     localAccountId := localAccountId a; username := username a;
     authorityType := v; name := name a;
     clientInfo := clientInfo a;
     lastModificationTime := lastModificationTime a;
     lastModificationApp := lastModificationApp a |}.

Definition set_name (a : t) (v : js string) : t :=
  {| homeAccountId := homeAccountId a; environment := environment a;
     realm := realm a;
     localAccountId := localAccountId a; username := username a;
     authorityType := authorityType a; name := v;
     clientInfo := clientInfo a;
     lastModificationTime := lastModificationTime a;
     lastModificationApp := lastModificationApp a |}.

Definition set_clientInfo (a : t) (v : js string) : t :=
  {| homeAccountId := homeAccountId a; environment := environment a;
     realm := realm a;
     localAccountId := localAccountId a; username := username a;
     authorityType := authorityType a; name := name a;
     clientInfo := v;
     lastModificationTime := lastModificationTime a;
     lastModificationApp := lastModificationApp a |}.

Section Methods.

Variable K : Constants.t.

(** The crypto collaborator and [buildClientInfo] (account/ClientInfo):
    decoding the client-info blob either yields the [uid]/[utid] structure
    or throws. *)
Variable ICrypto : Type.
Variable buildClientInfo : js string -> ICrypto -> result ClientInfo.t.

(** [generateAccountId()]: <home_account_id>-<environment>. *)
Definition generateAccountId (this : t) : string :=
  let accountId := [homeAccountId this; environment this] in
  toLowerCase (join accountId (Constants.CACHE_KEY_SEPARATOR K)).

(** [static generateAccountCacheKey(accountInterface)]. *)
Definition generateAccountCacheKey (accountInterface : AccountInfo.t) : string :=
  let accountKey :=
    [AccountInfo.homeAccountId accountInterface;
     orEmpty (AccountInfo.environment accountInterface);
     orEmpty (AccountInfo.tenantId accountInterface)] in
  toLowerCase (join accountKey (Constants.CACHE_KEY_SEPARATOR K)).

(** [generateAccountKey()]: <home_account_id>-<environment>-<realm*>. *)
Definition generateAccountKey (this : t) : string :=
  generateAccountCacheKey
    (AccountInfo.make (homeAccountId this) (environment this)
       (realm this) (username this)).

(** [generateType()]: the returned number (or [null]) together with what
    the call wrote to the console. *)
Definition generateType (this : t) : js Z * list string :=
  if strictEqStr (authorityType this) (Constants.ADFS_ACCOUNT_TYPE K) then
    (val (Constants.ADFS K), [])
  else if strictEqStr (authorityType this) (Constants.MSAV1_ACCOUNT_TYPE K) then
    (val (Constants.MSA K), [])
  else if strictEqStr (authorityType this) (Constants.MSSTS_ACCOUNT_TYPE K) then
    (val (Constants.MSSTS K), [])
  else if strictEqStr (authorityType this) (Constants.GENERIC_ACCOUNT_TYPE K) then
    (val (Constants.GENERIC K), [])
  else
    (null, ["Unexpected account type"]).

(** [getAccountInfo()]. *)
Definition getAccountInfo (this : t) : AccountInfo.t :=
  AccountInfo.make (homeAccountId this) (environment this)
    (realm this) (username this).

(** [static createAccount(clientInfo, authority, idToken, policy, crypto)]. *)
Definition createAccount (clientInfo : js string) (authority : Authority.t)
    (idToken : js IdToken.t) (policy : js string) (crypto : ICrypto)
  : result t :=
  let account := new in
  let account :=
    set_authorityType account (val (Constants.MSSTS_ACCOUNT_TYPE K)) in
  let account := set_clientInfo account clientInfo in
  clientInfoObj <- buildClientInfo clientInfo crypto ;;
  let homeAccountId :=
    toString (ClientInfo.uid clientInfoObj)
    ++ Constants.CLIENT_INFO_SEPARATOR K
    ++ toString (ClientInfo.utid clientInfoObj) in
  let account :=
    set_homeAccountId account
      (if notNull policy
       then val ((homeAccountId ++ Constants.CACHE_KEY_SEPARATOR K)
                 ++ toString policy)
       else val homeAccountId) in
  let reqEnvironment :=
    Authority.HostNameAndPort
      (Authority.canonicalAuthorityUrlComponents authority) in
  let account :=
    set_environment account
      (if includes (Constants.EnvironmentAliases K) reqEnvironment
       then val (Constants.PreferredCacheEnvironment K)
       else reqEnvironment) in
  claims <- getProp idToken "claims" IdToken.claims ;;
  let account := set_realm account (IdToken.tid claims) in
  if truthyObject idToken then
    claims <- getProp idToken "claims" IdToken.claims ;;
    let localAccountId :=
      if negb (StringUtils.isEmpty (IdToken.oid claims))
      then IdToken.oid claims
      else IdToken.sid claims in
    let account := set_localAccountId account localAccountId in
    let account := set_username account (IdToken.preferred_username claims) in
    let account := set_name account (IdToken.name claims) in
    Ok account
  else
    Ok account.

(** [static createADFSAccount(authority, idToken)]. *)
Definition createADFSAccount (authority : Authority.t) (idToken : js IdToken.t)
  : result t :=
  let account := new in
  let account :=
    set_authorityType account (val (Constants.ADFS_ACCOUNT_TYPE K)) in
  claims <- getProp idToken "claims" IdToken.claims ;;
  let account := set_homeAccountId account (IdToken.sub claims) in
  let account :=
    set_environment account
      (Authority.HostNameAndPort
         (Authority.canonicalAuthorityUrlComponents authority)) in
  claims <- getProp idToken "claims" IdToken.claims ;;
  let account := set_username account (IdToken.upn claims) in
  Ok account.

End Methods.

End AccountEntity.

(* ------------------------------------------------------------------ *)
(** ** Vocabulary of the properties *)

(** A claim or field is non-empty when it is present and has a character. *)
Definition nonEmpty (x : js string) : bool := negb (StringUtils.isEmpty x).

(** [H] is a case variant of [h]: the two differ at most in letter case. *)
Definition caseVariant (H h : string) : Prop := toLowerCase H = toLowerCase h.

(* ------------------------------------------------------------------ *)
(** ** Concrete inputs *)

Module Sample.

(** Modelled from the spec: utils/Constants is not among the sources.  The
    spec writes the client-info separator as ":" and the cache-key separator
    as "-", names "login.windows.net" as a member of the environment alias
    set and "login.microsoftonline.com" as its preferred host.  It leaves
    the account type names and the cache type numbers open; four distinct
    names and numbers stand for them. *)
Definition constants : Constants.t :=
  {| Constants.CACHE_KEY_SEPARATOR := "-";
     Constants.CLIENT_INFO_SEPARATOR := ":";
     Constants.ADFS_ACCOUNT_TYPE := "ADFS";
     Constants.MSAV1_ACCOUNT_TYPE := "MSA";
     Constants.MSSTS_ACCOUNT_TYPE := "MSSTS";
     Constants.GENERIC_ACCOUNT_TYPE := "Generic";
     Constants.ADFS := 1001;
     Constants.MSA := 1002;
     Constants.MSSTS := 1003;
     Constants.GENERIC := 1004;
     Constants.EnvironmentAliases :=
       ["login.microsoftonline.com"; "login.windows.net"];
     Constants.PreferredCacheEnvironment := "login.microsoftonline.com" |}.

(** A stand-in for the crypto collaborator: it rejects an absent or empty
    blob and decodes every other blob to the same [uid]/[utid] pair. *)
Definition buildClientInfo (rawClientInfo : js string) (crypto : unit)
  : result ClientInfo.t :=
  if StringUtils.isEmpty rawClientInfo
  then Throw (Thrown "client_info_empty_error")
  else Ok {| ClientInfo.uid := val "Uid"; ClientInfo.utid := val "Utid" |}.

Definition authority (host : string) : Authority.t :=
  {| Authority.canonicalAuthorityUrlComponents :=
       {| Authority.HostNameAndPort := val host |} |}.

(** An identity token carrying every claim the entity reads. *)
Definition fullClaims : IdToken.IdTokenClaims :=
  {| IdToken.tid := val "tenant-1";
     IdToken.oid := val "oid-1";
     IdToken.sid := val "sid123";
     IdToken.preferred_username := val "Ada@Contoso.com";
     IdToken.name := val "Ada";
     IdToken.sub := val "subject-1";
     IdToken.upn := val "ada@contoso.com" |}.

(** An identity token with an empty object id and a session id. *)
Definition sidOnlyClaims : IdToken.IdTokenClaims :=
  {| IdToken.tid := val "tenant-1";
     IdToken.oid := val "";
     IdToken.sid := val "sid123";
     IdToken.preferred_username := val "Ada@Contoso.com";
     IdToken.name := val "Ada";
     IdToken.sub := undefined;
     IdToken.upn := undefined |}.

(** An identity token that carries a name and nothing else: no tenant id
    and no subject. *)
Definition bareClaims : IdToken.IdTokenClaims :=
  {| IdToken.tid := undefined;
     IdToken.oid := undefined;
     IdToken.sid := undefined;
     IdToken.preferred_username := undefined;
     IdToken.name := val "Ada";
     IdToken.sub := undefined;
     IdToken.upn := undefined |}.

Definition token (c : IdToken.IdTokenClaims) : js IdToken.t :=
  val {| IdToken.claims := c |}.

Definition entity (h e r u ty : js string) : AccountEntity.t :=
  AccountEntity.set_authorityType
    (AccountEntity.set_username
       (AccountEntity.set_realm
          (AccountEntity.set_environment
             (AccountEntity.set_homeAccountId AccountEntity.new h) e) r) u) ty.

End Sample.

(* ------------------------------------------------------------------ *)
(** ** Facts about the JavaScript fragment *)

Import AccountEntity.

Lemma toLowerCase_app (s t : string) :
  toLowerCase (s ++ t) = toLowerCase s ++ toLowerCase t.
Proof.
  induction s as [|c s IH]; simpl.
  - reflexivity.
  - now rewrite IH.
Qed.

Lemma toLowerChar_idempotent (c : ascii) :
  toLowerChar (toLowerChar c) = toLowerChar c.
Proof.
  destruct c as [[] [] [] [] [] [] [] []]; reflexivity.
Qed.

Lemma toLowerCase_idempotent (s : string) :
  toLowerCase (toLowerCase s) = toLowerCase s.
Proof.
  induction s as [|c s IH]; simpl.
  - reflexivity.
  - now rewrite toLowerChar_idempotent, IH.
Qed.

(** A string and its lower case are case variants of each other. *)
Lemma caseVariant_toLowerCase (s : string) : caseVariant (toLowerCase s) s.
Proof.
  apply toLowerCase_idempotent.
Qed.

Lemma caseVariant_length (H h : string) :
  caseVariant H h -> String.length H = String.length h.
Proof.
  unfold caseVariant; revert h.
  induction H as [|c H IH]; intros [|d h]; simpl; try discriminate.
  - reflexivity.
  - intros E; injection E as _ E; now rewrite (IH h E).
Qed.

Example toLowerCase_ascii : toLowerCase "Login.Windows.NET:443" = "login.windows.net:443".
Proof. reflexivity. Qed.

Example join_absent_elements :
  join [val "a"; undefined; null; val "b"] "-" = "a---b".
Proof. reflexivity. Qed.

Lemma joinElem_orEmpty (x : js string) : joinElem (orEmpty x) = joinElem x.
Proof.
  destruct x as [| |s]; try reflexivity.
  unfold orEmpty; simpl.
  destruct (String.eqb_spec s ""); simpl; congruence.
Qed.

Lemma strictEqStr_true (x : js string) (c : string) :
  strictEqStr x c = true <-> x = val c.
Proof.
  destruct x as [| |s]; simpl; split; try discriminate.
  - intros H; apply String.eqb_eq in H; now subst.
  - intros H; injection H as ->; apply String.eqb_refl.
Qed.

Lemma strictEqStr_false (x : js string) (c : string) :
  x <> val c -> strictEqStr x c = false.
Proof.
  intros H; destruct (strictEqStr x c) eqn:E; [|reflexivity].
  apply strictEqStr_true in E; contradiction.
Qed.

Lemma includes_In (arr : list string) (s : string) :
  includes arr (val s) = true <-> In s arr.
Proof.
  unfold includes; rewrite existsb_exists; split.
  - intros [c [Hc E]]; apply strictEqStr_true in E; injection E as ->; exact Hc.
  - intros H; exists s; split; [exact H | now apply strictEqStr_true].
Qed.

Lemma append_assoc (s t u : string) : (s ++ t) ++ u = s ++ (t ++ u).
Proof.
  induction s as [|c s IH]; simpl; [reflexivity | now rewrite IH].
Qed.

Lemma append_empty_r (s : string) : s ++ "" = s.
Proof.
  induction s as [|c s IH]; simpl; [reflexivity | now rewrite IH].
Qed.

Lemma append_nonempty_r (s t : string) : t <> "" -> s ++ t <> "".
Proof.
  intros Ht; destruct s; simpl; [exact Ht | discriminate].
Qed.

Lemma append_nonempty_l (s t : string) : s <> "" -> s ++ t <> "".
Proof.
  intros Hs; destruct s; simpl; [contradiction | discriminate].
Qed.

Lemma nonEmpty_val (s : string) : s <> "" -> nonEmpty (val s) = true.
Proof.
  intros H; unfold nonEmpty; simpl.
  destruct (String.eqb_spec s ""); [contradiction | reflexivity].
Qed.

(* ------------------------------------------------------------------ *)
(** ** Key derivation *)

(** C1: for all strings h, e, r the account cache key is the lower case of
    h, e, r joined with the cache-key separator, whatever the username; when
    r is absent (undefined or null) or empty the key is the lower case of
    h, e and the empty segment joined, so it still ends in the (lower-cased)
    separator. *)
Theorem generateAccountCacheKey_lower_join
    (K : Constants.t) (h e r : string) (u : js string) :
  generateAccountCacheKey K (AccountInfo.make (val h) (val e) (val r) u)
  = toLowerCase (String.concat (Constants.CACHE_KEY_SEPARATOR K) [h; e; r])
  /\ generateAccountCacheKey K (AccountInfo.make (val h) (val e) undefined u)
     = toLowerCase (String.concat (Constants.CACHE_KEY_SEPARATOR K) [h; e; ""])
  /\ generateAccountCacheKey K (AccountInfo.make (val h) (val e) null u)
     = toLowerCase (String.concat (Constants.CACHE_KEY_SEPARATOR K) [h; e; ""])
  /\ generateAccountCacheKey K (AccountInfo.make (val h) (val e) (val "") u)
     = toLowerCase (String.concat (Constants.CACHE_KEY_SEPARATOR K) [h; e; ""])
  /\ toLowerCase (String.concat (Constants.CACHE_KEY_SEPARATOR K) [h; e; ""])
     = toLowerCase (h ++ Constants.CACHE_KEY_SEPARATOR K ++ e)
       ++ toLowerCase (Constants.CACHE_KEY_SEPARATOR K).
Proof.
  unfold generateAccountCacheKey; simpl.
  rewrite !joinElem_orEmpty; simpl.
  repeat split; try reflexivity.
  rewrite !toLowerCase_app; simpl.
  now rewrite append_empty_r, !append_assoc.
Qed.

(** C2: the account cache key does not depend on the username: two
    AccountInfo inputs that agree on homeAccountId, environment and tenantId
    have the same key, and two records that agree on homeAccountId,
    environment and realm have the same generateAccountKey. *)
Theorem generateAccountCacheKey_ignores_username
    (K : Constants.t) (a b : AccountInfo.t) (x y : AccountEntity.t) :
  AccountInfo.homeAccountId a = AccountInfo.homeAccountId b ->
  AccountInfo.environment a = AccountInfo.environment b ->
  AccountInfo.tenantId a = AccountInfo.tenantId b ->
  homeAccountId x = homeAccountId y ->
  environment x = environment y ->
  realm x = realm y ->
  generateAccountCacheKey K a = generateAccountCacheKey K b
  /\ generateAccountKey K x = generateAccountKey K y.
Proof.
  intros Hh He Ht Hxh Hxe Hxr.
  unfold generateAccountKey, generateAccountCacheKey; simpl.
  now rewrite Hh, He, Ht, Hxh, Hxe, Hxr.
Qed.

Lemma generateAccountCacheKey_ignores_username_witness :
  let a := AccountInfo.make (val "Uid.Utid") (val "login.windows.net")
             (val "tenant-1") (val "ada@contoso.com") in
  let b := AccountInfo.make (val "Uid.Utid") (val "login.windows.net")
             (val "tenant-1") (val "grace@contoso.com") in
  let x := Sample.entity (val "Uid.Utid") (val "login.windows.net")
             (val "tenant-1") (val "ada@contoso.com") (val "MSSTS") in
  let y := Sample.entity (val "Uid.Utid") (val "login.windows.net")
             (val "tenant-1") undefined (val "MSSTS") in
  AccountInfo.username a <> AccountInfo.username b
  /\ username x <> username y
  /\ generateAccountCacheKey Sample.constants a
     = generateAccountCacheKey Sample.constants b
  /\ generateAccountKey Sample.constants x
     = generateAccountKey Sample.constants y.
Proof.
  intros a b x y.
  split; [discriminate|]. split; [discriminate|].
  apply (generateAccountCacheKey_ignores_username Sample.constants a b x y);
    reflexivity.
Defined.

(** C3: for all strings h, e, generateAccountId on a record with
    homeAccountId h and environment e is the lower case of h followed by the
    cache-key separator followed by e, and any case variants H, E of h, e
    yield the same account id. *)
Theorem generateAccountId_lower_case_insensitive
    (K : Constants.t) (a b : AccountEntity.t) (h e H E : string) :
  homeAccountId a = val h -> environment a = val e ->
  homeAccountId b = val H -> environment b = val E ->
  caseVariant H h -> caseVariant E e ->
  generateAccountId K a
  = toLowerCase (h ++ Constants.CACHE_KEY_SEPARATOR K ++ e)
  /\ generateAccountId K b = generateAccountId K a.
Proof.
  intros Hah Hae Hbh Hbe HH HE.
  unfold generateAccountId; rewrite Hah, Hae, Hbh, Hbe; simpl.
  split; [reflexivity|].
  rewrite !toLowerCase_app.
  unfold caseVariant in HH, HE.
  now rewrite HH, HE.
Qed.

Lemma generateAccountId_lower_case_insensitive_witness :
  let a := Sample.entity (val "uid.utid") (val "login.windows.net")
             undefined undefined undefined in
  let b := Sample.entity (val "UID.Utid") (val "Login.Windows.NET")
             undefined undefined undefined in
  caseVariant "UID.Utid" "uid.utid"
  /\ caseVariant "Login.Windows.NET" "login.windows.net"
  /\ generateAccountId Sample.constants a = "uid.utid-login.windows.net"
  /\ generateAccountId Sample.constants b = generateAccountId Sample.constants a.
Proof.
  intros a b.
  split; [reflexivity|]. split; [reflexivity|].
  apply (generateAccountId_lower_case_insensitive Sample.constants a b
           "uid.utid" "login.windows.net" "UID.Utid" "Login.Windows.NET");
    reflexivity.
Defined.

(* ------------------------------------------------------------------ *)
(** ** Cache type classification *)

Lemma accountTypes_distinct (K : Constants.t) :
  NoDup (Constants.accountTypes K) ->
  Constants.ADFS_ACCOUNT_TYPE K <> Constants.MSAV1_ACCOUNT_TYPE K
  /\ Constants.ADFS_ACCOUNT_TYPE K <> Constants.MSSTS_ACCOUNT_TYPE K
  /\ Constants.ADFS_ACCOUNT_TYPE K <> Constants.GENERIC_ACCOUNT_TYPE K
  /\ Constants.MSAV1_ACCOUNT_TYPE K <> Constants.MSSTS_ACCOUNT_TYPE K
  /\ Constants.MSAV1_ACCOUNT_TYPE K <> Constants.GENERIC_ACCOUNT_TYPE K
  /\ Constants.MSSTS_ACCOUNT_TYPE K <> Constants.GENERIC_ACCOUNT_TYPE K.
Proof.
  unfold Constants.accountTypes; intros H.
  inversion H as [|? ? N1 H1]; subst.
  inversion H1 as [|? ? N2 H2]; subst.
  inversion H2 as [|? ? N3 H3]; subst.
  simpl in N1, N2, N3.
  repeat split; intros E; rewrite E in *; tauto.
Qed.

Lemma strictEqStr_val_neq (c d : string) :
  c <> d -> strictEqStr (val c) d = false.
Proof.
  intros H; apply strictEqStr_false; congruence.
Qed.

(** C9: generateType is total: with four distinct account type names, each
    of ADFS, MSA v1, MSSTS and generic maps to its own cache type number
    and writes nothing; every other authorityType value (an unset one
    included) yields null, which no number equals, and writes the
    diagnostic line to the console.  No path throws: the result is a plain
    value. *)
Theorem generateType_total (K : Constants.t) (this : AccountEntity.t) :
  NoDup (Constants.accountTypes K) ->
  (authorityType this = val (Constants.ADFS_ACCOUNT_TYPE K) ->
     generateType K this = (val (Constants.ADFS K), []))
  /\ (authorityType this = val (Constants.MSAV1_ACCOUNT_TYPE K) ->
     generateType K this = (val (Constants.MSA K), []))
  /\ (authorityType this = val (Constants.MSSTS_ACCOUNT_TYPE K) ->
     generateType K this = (val (Constants.MSSTS K), []))
  /\ (authorityType this = val (Constants.GENERIC_ACCOUNT_TYPE K) ->
     generateType K this = (val (Constants.GENERIC K), []))
  /\ ((forall c, In c (Constants.accountTypes K) ->
         authorityType this <> val c) ->
     generateType K this = (null, ["Unexpected account type"]))
  /\ (forall (n : Z) (out : list string),
        (@null Z, ["Unexpected account type"]) <> (val n, out)).
Proof.
  intros ND.
  destruct (accountTypes_distinct K ND) as (D1 & D2 & D3 & D4 & D5 & D6).
  unfold generateType.
  repeat split.
  - intros ->. simpl. now rewrite String.eqb_refl.
  - intros ->.
    rewrite (strictEqStr_val_neq _ _ (not_eq_sym D1)).
    simpl. now rewrite String.eqb_refl.
  - intros ->.
    rewrite (strictEqStr_val_neq _ _ (not_eq_sym D2)),
            (strictEqStr_val_neq _ _ (not_eq_sym D4)).
    simpl. now rewrite String.eqb_refl.
  - intros ->.
    rewrite (strictEqStr_val_neq _ _ (not_eq_sym D3)),
            (strictEqStr_val_neq _ _ (not_eq_sym D5)),
            (strictEqStr_val_neq _ _ (not_eq_sym D6)).
    simpl. now rewrite String.eqb_refl.
  - intros Hother.
    rewrite !strictEqStr_false; [reflexivity | | | |];
      apply Hother; unfold Constants.accountTypes; simpl; tauto.
  - intros n out; discriminate.
Qed.

Lemma generateType_total_witness :
  NoDup (Constants.accountTypes Sample.constants)
  /\ generateType Sample.constants
       (Sample.entity undefined undefined undefined undefined (val "MSSTS"))
     = (val 1003%Z, [])
  /\ generateType Sample.constants
       (Sample.entity undefined undefined undefined undefined undefined)
     = (null, ["Unexpected account type"]).
Proof.
  assert (ND : NoDup (Constants.accountTypes Sample.constants)).
  { unfold Constants.accountTypes; simpl.
    repeat constructor; simpl; intuition discriminate. }
  split; [exact ND|].
  split.
  - apply (generateType_total Sample.constants
             (Sample.entity undefined undefined undefined undefined
                (val "MSSTS")) ND).
    reflexivity.
  - apply (generateType_total Sample.constants
             (Sample.entity undefined undefined undefined undefined
                undefined) ND).
    intros c _; discriminate.
Defined.

(* ------------------------------------------------------------------ *)
(** ** Account construction *)

Section Construction.

Variable K : Constants.t.
Variable ICrypto : Type.
Variable buildClientInfo : js string -> ICrypto -> result ClientInfo.t.

(** With a decoded blob and a token at hand, [createAccount] returns, and
    every field of the record is a function of the inputs. *)
Lemma createAccount_present
    (clientInfo : js string) (authority : Authority.t) (tok : IdToken.t)
    (policy : js string) (crypto : ICrypto) (obj : ClientInfo.t) :
  buildClientInfo clientInfo crypto = Ok obj ->
  exists r,
    createAccount K ICrypto buildClientInfo
      clientInfo authority (val tok) policy crypto = Ok r
    /\ authorityType r = val (Constants.MSSTS_ACCOUNT_TYPE K)
    /\ AccountEntity.clientInfo r = clientInfo
    /\ homeAccountId r
       = (let home := toString (ClientInfo.uid obj)
                      ++ Constants.CLIENT_INFO_SEPARATOR K
                      ++ toString (ClientInfo.utid obj) in
          if notNull policy
          then val ((home ++ Constants.CACHE_KEY_SEPARATOR K)
                    ++ toString policy)
          else val home)
    /\ environment r
       = (let host := Authority.HostNameAndPort
                        (Authority.canonicalAuthorityUrlComponents authority) in
          if includes (Constants.EnvironmentAliases K) host
          then val (Constants.PreferredCacheEnvironment K)
          else host)
    /\ realm r = IdToken.tid (IdToken.claims tok)
    /\ localAccountId r
       = (if StringUtils.isEmpty (IdToken.oid (IdToken.claims tok))
          then IdToken.sid (IdToken.claims tok)
          else IdToken.oid (IdToken.claims tok))
    /\ username r = IdToken.preferred_username (IdToken.claims tok)
    /\ name r = IdToken.name (IdToken.claims tok).
Proof.
  intros Hobj.
  unfold createAccount; rewrite Hobj; simpl.
  eexists; split; [reflexivity|]; simpl.
  repeat split.
  now destruct (StringUtils.isEmpty (IdToken.oid (IdToken.claims tok))).
Qed.

(** Reading [idToken.claims] is the first use of the token, and it comes
    before the [if (idToken)] guard. *)
Lemma createAccount_absent
    (clientInfo : js string) (authority : Authority.t)
    (policy : js string) (crypto : ICrypto) :
  createAccount K ICrypto buildClientInfo
    clientInfo authority undefined policy crypto
  = (_ <- buildClientInfo clientInfo crypto ;; Throw (TypeError "claims"))
  /\ createAccount K ICrypto buildClientInfo
       clientInfo authority null policy crypto
     = (_ <- buildClientInfo clientInfo crypto ;; Throw (TypeError "claims")).
Proof.
  unfold createAccount.
  destruct (buildClientInfo clientInfo crypto); split; reflexivity.
Qed.

Lemma createADFSAccount_present (authority : Authority.t) (tok : IdToken.t) :
  exists r,
    createADFSAccount K authority (val tok) = Ok r
    /\ authorityType r = val (Constants.ADFS_ACCOUNT_TYPE K)
    /\ homeAccountId r = IdToken.sub (IdToken.claims tok)
    /\ environment r
       = Authority.HostNameAndPort
           (Authority.canonicalAuthorityUrlComponents authority)
    /\ username r = IdToken.upn (IdToken.claims tok)
    /\ realm r = undefined
    /\ localAccountId r = undefined
    /\ name r = undefined.
Proof.
  unfold createADFSAccount; simpl.
  eexists; split; [reflexivity|]; simpl.
  repeat split.
Qed.

End Construction.

(** C4, as the code has it: given a decoded blob and a token, createAccount
    returns a record whose homeAccountId is non-empty as soon as the
    client-info separator is, whose environment is the preferred host for an
    alias and the authority host otherwise (so it is non-empty exactly when
    that string is), and whose realm is the token's tid claim, empty or not,
    under the MSSTS authority type; createADFSAccount returns a record whose
    homeAccountId is the token's sub claim and whose environment is the
    authority host, each non-empty exactly when that input is, and whose
    realm is unset. *)
Theorem constructed_record_identifiers
    (K : Constants.t) (ICrypto : Type)
    (buildClientInfo : js string -> ICrypto -> result ClientInfo.t)
    (clientInfo : js string) (authority : Authority.t) (tok : IdToken.t)
    (policy : js string) (crypto : ICrypto) (obj : ClientInfo.t) :
  buildClientInfo clientInfo crypto = Ok obj ->
  Constants.CLIENT_INFO_SEPARATOR K <> "" ->
  (exists r,
     createAccount K ICrypto buildClientInfo
       clientInfo authority (val tok) policy crypto = Ok r
     /\ nonEmpty (homeAccountId r) = true
     /\ nonEmpty (environment r)
        = (let host := Authority.HostNameAndPort
                         (Authority.canonicalAuthorityUrlComponents authority) in
           if includes (Constants.EnvironmentAliases K) host
           then nonEmpty (val (Constants.PreferredCacheEnvironment K))
           else nonEmpty host)
     /\ realm r = IdToken.tid (IdToken.claims tok)
     /\ authorityType r = val (Constants.MSSTS_ACCOUNT_TYPE K))
  /\ (exists r,
        createADFSAccount K authority (val tok) = Ok r
        /\ nonEmpty (homeAccountId r)
           = nonEmpty (IdToken.sub (IdToken.claims tok))
        /\ nonEmpty (environment r)
           = nonEmpty (Authority.HostNameAndPort
                         (Authority.canonicalAuthorityUrlComponents authority))
        /\ realm r = undefined
        /\ authorityType r = val (Constants.ADFS_ACCOUNT_TYPE K)).
Proof.
  intros Hobj Hsep; split.
  - destruct (createAccount_present K ICrypto buildClientInfo clientInfo
                authority tok policy crypto obj Hobj)
      as (r & Hr & Hty & _ & Hhome & Henv & Hrealm & _).
    exists r; split; [exact Hr|].
    repeat split; try assumption.
    + rewrite Hhome; simpl.
      destruct (notNull policy); apply nonEmpty_val.
      * apply append_nonempty_l, append_nonempty_l, append_nonempty_r,
          append_nonempty_l, Hsep.
      * apply append_nonempty_r, append_nonempty_l, Hsep.
    + rewrite Henv; simpl.
      now destruct (includes _ _).
  - destruct (createADFSAccount_present K authority tok)
      as (r & Hr & Hty & Hhome & Henv & _ & Hrealm & _).
    exists r; split; [exact Hr|].
    now rewrite Hhome, Henv.
Qed.

Lemma constructed_record_identifiers_witness :
  Sample.buildClientInfo (val "blob") tt
  = Ok {| ClientInfo.uid := val "Uid"; ClientInfo.utid := val "Utid" |}
  /\ Constants.CLIENT_INFO_SEPARATOR Sample.constants <> ""
  /\ (exists r,
        createAccount Sample.constants unit Sample.buildClientInfo
          (val "blob") (Sample.authority "login.contoso.com")
          (val {| IdToken.claims := Sample.fullClaims |}) null tt = Ok r
        /\ nonEmpty (homeAccountId r) = true
        /\ nonEmpty (environment r) = true
        /\ realm r = val "tenant-1"
        /\ authorityType r = val "MSSTS").
Proof.
  split; [reflexivity|]. split; [discriminate|].
  apply (constructed_record_identifiers Sample.constants unit
           Sample.buildClientInfo (val "blob")
           (Sample.authority "login.contoso.com")
           {| IdToken.claims := Sample.fullClaims |} null tt
           {| ClientInfo.uid := val "Uid"; ClientInfo.utid := val "Utid" |});
    [reflexivity | discriminate].
Defined.

(** C4 as stated fails: a federation-services record built from a token
    without a subject claim has no homeAccountId, and a modern-authority
    record built from a token without a tenant id has an empty realm under
    the MSSTS authority type. *)
Lemma constructed_record_empty_identifiers :
  (exists r,
     createADFSAccount Sample.constants
       (Sample.authority "adfs.contoso.com") (Sample.token Sample.bareClaims)
     = Ok r
     /\ homeAccountId r = undefined
     /\ nonEmpty (homeAccountId r) = false)
  /\ (exists r,
        createAccount Sample.constants unit Sample.buildClientInfo
          (val "blob") (Sample.authority "login.windows.net")
          (Sample.token Sample.bareClaims) null tt = Ok r
        /\ authorityType r
           = val (Constants.MSSTS_ACCOUNT_TYPE Sample.constants)
        /\ realm r = undefined
        /\ nonEmpty (realm r) = false).
Proof.
  split; eexists; (split; [reflexivity|]); simpl; repeat split.
Qed.

(** C5, at the failing input: called without an identity token, whether
    undefined or null, createAccount does not return a record.  Once the
    client-info blob has been decoded, the read of [idToken.claims] that
    sets the realm throws a TypeError before the [if (idToken)] guard is
    reached. *)
Theorem createAccount_absent_idToken_throws :
  createAccount Sample.constants unit Sample.buildClientInfo
    (val "blob") (Sample.authority "login.windows.net") undefined null tt
  = Throw (TypeError "claims")
  /\ createAccount Sample.constants unit Sample.buildClientInfo
       (val "blob") (Sample.authority "login.windows.net") null null tt
     = Throw (TypeError "claims")
  /\ forall (K : Constants.t) (ICrypto : Type)
       (buildClientInfo : js string -> ICrypto -> result ClientInfo.t)
       (clientInfo : js string) (authority : Authority.t)
       (policy : js string) (crypto : ICrypto),
       exists e,
         createAccount K ICrypto buildClientInfo
           clientInfo authority undefined policy crypto = Throw e.
Proof.
  split; [reflexivity|]. split; [reflexivity|].
  intros K ICrypto buildClientInfo clientInfo authority policy crypto.
  destruct (createAccount_absent K ICrypto buildClientInfo
              clientInfo authority policy crypto) as [-> _].
  destruct (buildClientInfo clientInfo crypto) as [obj|e]; simpl; eauto.
Qed.

(** C6: alias normalization is applied only on the modern-authority path:
    for an authority host in the environment alias set, createAccount sets
    environment to the preferred host, while createADFSAccount with the
    same authority sets environment to the host unchanged. *)
Theorem environment_alias_only_for_createAccount
    (K : Constants.t) (ICrypto : Type)
    (buildClientInfo : js string -> ICrypto -> result ClientInfo.t)
    (clientInfo : js string) (authority : Authority.t) (tok : IdToken.t)
    (policy : js string) (crypto : ICrypto) (obj : ClientInfo.t)
    (host : string) :
  buildClientInfo clientInfo crypto = Ok obj ->
  Authority.HostNameAndPort
    (Authority.canonicalAuthorityUrlComponents authority) = val host ->
  In host (Constants.EnvironmentAliases K) ->
  (exists r,
     createAccount K ICrypto buildClientInfo
       clientInfo authority (val tok) policy crypto = Ok r
     /\ environment r = val (Constants.PreferredCacheEnvironment K))
  /\ (exists r,
        createADFSAccount K authority (val tok) = Ok r
        /\ environment r = val host).
Proof.
  intros Hobj Hhost Hin; split.
  - destruct (createAccount_present K ICrypto buildClientInfo clientInfo
                authority tok policy crypto obj Hobj)
      as (r & Hr & _ & _ & _ & Henv & _).
    exists r; split; [exact Hr|].
    rewrite Henv, Hhost; cbv zeta.
    now rewrite (proj2 (includes_In _ _) Hin).
  - destruct (createADFSAccount_present K authority tok)
      as (r & Hr & _ & _ & Henv & _).
    exists r; split; [exact Hr|].
    now rewrite Henv.
Qed.

Lemma environment_alias_only_for_createAccount_witness :
  Sample.buildClientInfo (val "blob") tt
  = Ok {| ClientInfo.uid := val "Uid"; ClientInfo.utid := val "Utid" |}
  /\ In "login.windows.net" (Constants.EnvironmentAliases Sample.constants)
  /\ (exists r,
        createAccount Sample.constants unit Sample.buildClientInfo
          (val "blob") (Sample.authority "login.windows.net")
          (val {| IdToken.claims := Sample.fullClaims |}) null tt = Ok r
        /\ environment r = val "login.microsoftonline.com")
  /\ (exists r,
        createADFSAccount Sample.constants
          (Sample.authority "login.windows.net")
          (val {| IdToken.claims := Sample.fullClaims |}) = Ok r
        /\ environment r = val "login.windows.net").
Proof.
  split; [reflexivity|]. split; [simpl; tauto|].
  apply (environment_alias_only_for_createAccount Sample.constants unit
           Sample.buildClientInfo (val "blob")
           (Sample.authority "login.windows.net")
           {| IdToken.claims := Sample.fullClaims |} null tt
           {| ClientInfo.uid := val "Uid"; ClientInfo.utid := val "Utid" |}
           "login.windows.net");
    [reflexivity | reflexivity | simpl; tauto].
Defined.

(** X12: the alias test is an exact string match: for an authority host
    that is not literally in the environment alias set, a case variant of
    an alias included, createAccount keeps the host as the environment. *)
Lemma environment_unchanged_off_alias_set
    (K : Constants.t) (ICrypto : Type)
    (buildClientInfo : js string -> ICrypto -> result ClientInfo.t)
    (clientInfo : js string) (authority : Authority.t) (tok : IdToken.t)
    (policy : js string) (crypto : ICrypto) (obj : ClientInfo.t)
    (host : string) :
  buildClientInfo clientInfo crypto = Ok obj ->
  Authority.HostNameAndPort
    (Authority.canonicalAuthorityUrlComponents authority) = val host ->
  ~ In host (Constants.EnvironmentAliases K) ->
  exists r,
    createAccount K ICrypto buildClientInfo
      clientInfo authority (val tok) policy crypto = Ok r
    /\ environment r = val host.
Proof.
  intros Hobj Hhost Hin.
  destruct (createAccount_present K ICrypto buildClientInfo clientInfo
              authority tok policy crypto obj Hobj)
    as (r & Hr & _ & _ & _ & Henv & _).
  exists r; split; [exact Hr|].
  rewrite Henv, Hhost; cbv zeta.
  destruct (includes (Constants.EnvironmentAliases K) (val host)) eqn:E;
    [|reflexivity].
  apply includes_In in E; contradiction.
Qed.

(** C7: for all uid and utid decoded from the client-info blob,
    createAccount with a null policy sets homeAccountId to
    uid + clientInfoSeparator + utid and nothing more, and with a policy
    string p sets it to uid + clientInfoSeparator + utid
    + cacheKeySeparator + p. *)
Theorem createAccount_homeAccountId_policy
    (K : Constants.t) (ICrypto : Type)
    (buildClientInfo : js string -> ICrypto -> result ClientInfo.t)
    (clientInfo : js string) (authority : Authority.t) (tok : IdToken.t)
    (crypto : ICrypto) (uid utid p : string) :
  buildClientInfo clientInfo crypto
  = Ok {| ClientInfo.uid := val uid; ClientInfo.utid := val utid |} ->
  (exists r,
     createAccount K ICrypto buildClientInfo
       clientInfo authority (val tok) null crypto = Ok r
     /\ homeAccountId r
        = val (uid ++ Constants.CLIENT_INFO_SEPARATOR K ++ utid))
  /\ (exists r,
        createAccount K ICrypto buildClientInfo
          clientInfo authority (val tok) (val p) crypto = Ok r
        /\ homeAccountId r
           = val (uid ++ Constants.CLIENT_INFO_SEPARATOR K ++ utid
                  ++ Constants.CACHE_KEY_SEPARATOR K ++ p)).
Proof.
  intros Hobj; split.
  - destruct (createAccount_present K ICrypto buildClientInfo clientInfo
                authority tok null crypto _ Hobj)
      as (r & Hr & _ & _ & Hhome & _).
    exists r; split; [exact Hr | exact Hhome].
  - destruct (createAccount_present K ICrypto buildClientInfo clientInfo
                authority tok (val p) crypto _ Hobj)
      as (r & Hr & _ & _ & Hhome & _).
    exists r; split; [exact Hr|].
    rewrite Hhome; simpl.
    now rewrite !append_assoc.
Qed.

Lemma createAccount_homeAccountId_policy_witness :
  Sample.buildClientInfo (val "blob") tt
  = Ok {| ClientInfo.uid := val "Uid"; ClientInfo.utid := val "Utid" |}
  /\ (exists r,
        createAccount Sample.constants unit Sample.buildClientInfo
          (val "blob") (Sample.authority "login.windows.net")
          (val {| IdToken.claims := Sample.fullClaims |}) null tt = Ok r
        /\ homeAccountId r = val "Uid:Utid")
  /\ (exists r,
        createAccount Sample.constants unit Sample.buildClientInfo
          (val "blob") (Sample.authority "login.windows.net")
          (val {| IdToken.claims := Sample.fullClaims |}) (val "P1") tt = Ok r
        /\ homeAccountId r = val "Uid:Utid-P1").
Proof.
  split; [reflexivity|].
  apply (createAccount_homeAccountId_policy Sample.constants unit
           Sample.buildClientInfo (val "blob")
           (Sample.authority "login.windows.net")
           {| IdToken.claims := Sample.fullClaims |} tt "Uid" "Utid" "P1").
  reflexivity.
Defined.

(** C8: for every decoded identity token passed to createAccount, the
    record's localAccountId is the token's object-identifier claim when
    that claim is non-empty, and the session-identifier claim otherwise. *)
Theorem createAccount_localAccountId_fallback
    (K : Constants.t) (ICrypto : Type)
    (buildClientInfo : js string -> ICrypto -> result ClientInfo.t)
    (clientInfo : js string) (authority : Authority.t) (tok : IdToken.t)
    (policy : js string) (crypto : ICrypto) (obj : ClientInfo.t) :
  buildClientInfo clientInfo crypto = Ok obj ->
  exists r,
    createAccount K ICrypto buildClientInfo
      clientInfo authority (val tok) policy crypto = Ok r
    /\ localAccountId r
       = (if nonEmpty (IdToken.oid (IdToken.claims tok))
          then IdToken.oid (IdToken.claims tok)
          else IdToken.sid (IdToken.claims tok)).
Proof.
  intros Hobj.
  destruct (createAccount_present K ICrypto buildClientInfo clientInfo
              authority tok policy crypto obj Hobj)
    as (r & Hr & _ & _ & _ & _ & _ & Hlocal & _).
  exists r; split; [exact Hr|].
  rewrite Hlocal; unfold nonEmpty.
  now destruct (StringUtils.isEmpty (IdToken.oid (IdToken.claims tok))).
Qed.

Lemma createAccount_localAccountId_fallback_witness :
  Sample.buildClientInfo (val "blob") tt
  = Ok {| ClientInfo.uid := val "Uid"; ClientInfo.utid := val "Utid" |}
  /\ IdToken.oid Sample.sidOnlyClaims = val ""
  /\ exists r,
       createAccount Sample.constants unit Sample.buildClientInfo
         (val "blob") (Sample.authority "login.windows.net")
         (val {| IdToken.claims := Sample.sidOnlyClaims |}) null tt = Ok r
       /\ localAccountId r = val "sid123".
Proof.
  split; [reflexivity|]. split; [reflexivity|].
  apply (createAccount_localAccountId_fallback Sample.constants unit
           Sample.buildClientInfo (val "blob")
           (Sample.authority "login.windows.net")
           {| IdToken.claims := Sample.sidOnlyClaims |} null tt
           {| ClientInfo.uid := val "Uid"; ClientInfo.utid := val "Utid" |}).
  reflexivity.
Defined.

(** C10: the policy guard tests only [policy !== null], so an undefined
    policy takes the suffixing branch: homeAccountId is
    uid + clientInfoSeparator + utid + cacheKeySeparator followed by the
    text "undefined". *)
Theorem createAccount_undefined_policy_suffix
    (K : Constants.t) (ICrypto : Type)
    (buildClientInfo : js string -> ICrypto -> result ClientInfo.t)
    (clientInfo : js string) (authority : Authority.t) (tok : IdToken.t)
    (crypto : ICrypto) (uid utid : string) :
  buildClientInfo clientInfo crypto
  = Ok {| ClientInfo.uid := val uid; ClientInfo.utid := val utid |} ->
  exists r,
    createAccount K ICrypto buildClientInfo
      clientInfo authority (val tok) undefined crypto = Ok r
    /\ homeAccountId r
       = val (uid ++ Constants.CLIENT_INFO_SEPARATOR K ++ utid
              ++ Constants.CACHE_KEY_SEPARATOR K ++ "undefined").
Proof.
  intros Hobj.
  destruct (createAccount_present K ICrypto buildClientInfo clientInfo
              authority tok undefined crypto _ Hobj)
    as (r & Hr & _ & _ & Hhome & _).
  exists r; split; [exact Hr|].
  rewrite Hhome; simpl.
  now rewrite !append_assoc.
Qed.

Lemma createAccount_undefined_policy_suffix_witness :
  Sample.buildClientInfo (val "blob") tt
  = Ok {| ClientInfo.uid := val "Uid"; ClientInfo.utid := val "Utid" |}
  /\ exists r,
       createAccount Sample.constants unit Sample.buildClientInfo
         (val "blob") (Sample.authority "login.windows.net")
         (val {| IdToken.claims := Sample.fullClaims |}) undefined tt = Ok r
       /\ homeAccountId r = val "Uid:Utid-undefined".
Proof.
  split; [reflexivity|].
  apply (createAccount_undefined_policy_suffix Sample.constants unit
           Sample.buildClientInfo (val "blob")
           (Sample.authority "login.windows.net")
           {| IdToken.claims := Sample.fullClaims |} tt "Uid" "Utid").
  reflexivity.
Defined.

(** The public projection keeps the four identity fields and nothing else. *)
Lemma getAccountInfo_fields (this : AccountEntity.t) :
  getAccountInfo this
  = AccountInfo.make (homeAccountId this) (environment this)
      (realm this) (username this).
Proof.
  reflexivity.
Qed.

(** The account key of a constructed record addresses it by home account id,
    normalised environment and realm. *)
Example createAccount_key_sample :
  exists r,
    createAccount Sample.constants unit Sample.buildClientInfo
      (val "blob") (Sample.authority "login.windows.net")
      (Sample.token Sample.fullClaims) null tt = Ok r
    /\ generateAccountId Sample.constants r
       = "uid:utid-login.microsoftonline.com"
    /\ generateAccountKey Sample.constants r
       = "uid:utid-login.microsoftonline.com-tenant-1".
Proof.
  eexists; split; [reflexivity|]; split; reflexivity.
Qed.

(** A federation-services record has no realm: its key ends in the
    separator. *)
Example createADFSAccount_key_sample :
  exists r,
    createADFSAccount Sample.constants (Sample.authority "adfs.contoso.com")
      (Sample.token Sample.fullClaims) = Ok r
    /\ generateAccountKey Sample.constants r = "subject-1-adfs.contoso.com-"
    /\ generateType Sample.constants r = (val 1001%Z, []).
Proof.
  eexists; split; [reflexivity|]; split; reflexivity.
Qed.

(* ------------------------------------------------------------------ *)
(** ** Further properties of key derivation *)

(** X1: the account key of any record, whatever fields are set, is its
    account id followed by the lower-cased separator and the lower-cased
    realm (nothing for an unset realm). *)
Theorem generateAccountKey_extends_generateAccountId
    (K : Constants.t) (this : AccountEntity.t) :
  generateAccountKey K this
  = generateAccountId K this
    ++ toLowerCase (Constants.CACHE_KEY_SEPARATOR K)
    ++ toLowerCase (joinElem (realm this)).
Proof.
  unfold generateAccountKey, generateAccountCacheKey, generateAccountId; simpl.
  rewrite !joinElem_orEmpty, !toLowerCase_app.
  now rewrite !append_assoc.
Qed.

(** X2: both keys of a record are functions of its public view: records
    with the same getAccountInfo have the same account key and the same
    account id, and the static key of the view is the record's key. *)
Theorem keys_determined_by_getAccountInfo
    (K : Constants.t) (a b : AccountEntity.t) :
  getAccountInfo a = getAccountInfo b ->
  generateAccountKey K a = generateAccountKey K b
  /\ generateAccountId K a = generateAccountId K b
  /\ generateAccountCacheKey K (getAccountInfo a) = generateAccountKey K a.
Proof.
  unfold getAccountInfo, AccountInfo.make; intros E.
  injection E as Hh He Hr Hu.
  unfold generateAccountKey, generateAccountId, AccountInfo.make.
  rewrite Hh, He, Hr, Hu.
  repeat split.
Qed.

Lemma keys_determined_by_getAccountInfo_witness :
  let a := Sample.entity (val "Uid.Utid") (val "login.windows.net")
             (val "tenant-1") (val "ada@contoso.com") (val "MSSTS") in
  let b := AccountEntity.set_name
             (Sample.entity (val "Uid.Utid") (val "login.windows.net")
                (val "tenant-1") (val "ada@contoso.com") (val "Generic"))
             (val "Ada") in
  a <> b
  /\ getAccountInfo a = getAccountInfo b
  /\ generateAccountKey Sample.constants a
     = generateAccountKey Sample.constants b.
Proof.
  intros a b.
  split; [discriminate|]. split; [reflexivity|].
  apply (keys_determined_by_getAccountInfo Sample.constants a b).
  reflexivity.
Defined.

(** X3: every derived key is already in lower case: lower-casing an account
    id, an account key or a static cache key again changes nothing. *)
Theorem derived_keys_are_lower_case
    (K : Constants.t) (this : AccountEntity.t) (info : AccountInfo.t) :
  toLowerCase (generateAccountId K this) = generateAccountId K this
  /\ toLowerCase (generateAccountKey K this) = generateAccountKey K this
  /\ toLowerCase (generateAccountCacheKey K info)
     = generateAccountCacheKey K info.
Proof.
  unfold generateAccountKey, generateAccountCacheKey, generateAccountId.
  repeat split; apply toLowerCase_idempotent.
Qed.

(** X4: the static cache key is case-insensitive in all three components:
    case variants of homeAccountId, environment and tenantId give the same
    key, whatever the usernames. *)
Theorem generateAccountCacheKey_case_insensitive
    (K : Constants.t) (h e r H E R : string) (u u' : js string) :
  caseVariant H h -> caseVariant E e -> caseVariant R r ->
  generateAccountCacheKey K (AccountInfo.make (val H) (val E) (val R) u)
  = generateAccountCacheKey K (AccountInfo.make (val h) (val e) (val r) u').
Proof.
  unfold caseVariant; intros HH HE HR.
  unfold generateAccountCacheKey; simpl.
  rewrite !joinElem_orEmpty; simpl.
  rewrite !toLowerCase_app.
  now rewrite HH, HE, HR.
Qed.

Lemma generateAccountCacheKey_case_insensitive_witness :
  caseVariant "UID.Utid" "uid.utid"
  /\ caseVariant "Login.Windows.NET" "login.windows.net"
  /\ caseVariant "Tenant-1" "tenant-1"
  /\ generateAccountCacheKey Sample.constants
       (AccountInfo.make (val "UID.Utid") (val "Login.Windows.NET")
          (val "Tenant-1") (val "ada"))
     = generateAccountCacheKey Sample.constants
         (AccountInfo.make (val "uid.utid") (val "login.windows.net")
            (val "tenant-1") undefined).
Proof.
  split; [reflexivity|]. split; [reflexivity|]. split; [reflexivity|].
  apply (generateAccountCacheKey_case_insensitive Sample.constants);
    reflexivity.
Defined.

(** X5: an absent key component, undefined or null, is keyed exactly like
    the empty string: this holds for environment and tenantId, which the
    code defaults, and for homeAccountId, which it does not; the same holds
    for the two fields of the account id.  The text "undefined" never
    enters a key this way. *)
Theorem absent_key_components_are_empty
    (K : Constants.t) (h e r u : js string) (this : AccountEntity.t) :
  generateAccountCacheKey K (AccountInfo.make h e r u)
  = generateAccountCacheKey K
      (AccountInfo.make (val (joinElem h)) (val (joinElem e))
         (val (joinElem r)) u)
  /\ generateAccountId K this
     = toLowerCase (joinElem (homeAccountId this)
                    ++ Constants.CACHE_KEY_SEPARATOR K
                    ++ joinElem (environment this)).
Proof.
  unfold generateAccountCacheKey, generateAccountId; simpl.
  rewrite !joinElem_orEmpty; simpl.
  split; reflexivity.
Qed.

(** X6: the separator is not escaped, so the keys do not determine their
    components: moving a separator-delimited segment from the end of
    homeAccountId to the front of environment leaves the static cache key
    and the account id unchanged. *)
Theorem key_components_not_recoverable
    (K : Constants.t) (a b c : string) (r u : js string) :
  generateAccountCacheKey K
    (AccountInfo.make
       (val (a ++ Constants.CACHE_KEY_SEPARATOR K ++ b)) (val c) r u)
  = generateAccountCacheKey K
      (AccountInfo.make
         (val a) (val (b ++ Constants.CACHE_KEY_SEPARATOR K ++ c)) r u)
  /\ generateAccountId K
       (set_environment
          (set_homeAccountId new
             (val (a ++ Constants.CACHE_KEY_SEPARATOR K ++ b))) (val c))
     = generateAccountId K
         (set_environment
            (set_homeAccountId new (val a))
            (val (b ++ Constants.CACHE_KEY_SEPARATOR K ++ c))).
Proof.
  unfold generateAccountCacheKey, generateAccountId; simpl.
  rewrite !joinElem_orEmpty; simpl.
  split; now rewrite !append_assoc.
Qed.

(* ------------------------------------------------------------------ *)
(** ** Further properties of account construction *)


(** X8: a failure to decode the client-info blob surfaces unchanged: when
    buildClientInfo throws, createAccount throws the same exception for
    every authority, token (absent ones included) and policy. *)
Theorem createAccount_propagates_decode_failure
    (K : Constants.t) (ICrypto : Type)
    (buildClientInfo : js string -> ICrypto -> result ClientInfo.t)
    (clientInfo : js string) (crypto : ICrypto) (e : exn) :
  buildClientInfo clientInfo crypto = Throw e ->
  forall (authority : Authority.t) (idToken : js IdToken.t)
         (policy : js string),
    createAccount K ICrypto buildClientInfo
      clientInfo authority idToken policy crypto = Throw e.
Proof.
  intros He authority idToken policy.
  unfold createAccount; now rewrite He.
Qed.

Lemma createAccount_propagates_decode_failure_witness :
  Sample.buildClientInfo (val "") tt = Throw (Thrown "client_info_empty_error")
  /\ createAccount Sample.constants unit Sample.buildClientInfo
       (val "") (Sample.authority "login.windows.net") undefined null tt
     = Throw (Thrown "client_info_empty_error")
  /\ createAccount Sample.constants unit Sample.buildClientInfo
       (val "") (Sample.authority "login.windows.net")
       (Sample.token Sample.fullClaims) (val "P1") tt
     = Throw (Thrown "client_info_empty_error").
Proof.
  split; [reflexivity|].
  split;
    apply (createAccount_propagates_decode_failure Sample.constants unit
             Sample.buildClientInfo (val "") tt
             (Thrown "client_info_empty_error"));
    reflexivity.
Defined.


(** X10: createAccount cannot tell two alias hosts apart: for authorities
    whose hosts both lie in the environment alias set, and otherwise equal
    arguments, the two calls have the same outcome, record for record. *)
Theorem createAccount_alias_hosts_same_outcome
    (K : Constants.t) (ICrypto : Type)
    (buildClientInfo : js string -> ICrypto -> result ClientInfo.t)
    (clientInfo : js string) (authority1 authority2 : Authority.t)
    (idToken : js IdToken.t) (policy : js string) (crypto : ICrypto)
    (host1 host2 : string) :
  Authority.HostNameAndPort
    (Authority.canonicalAuthorityUrlComponents authority1) = val host1 ->
  Authority.HostNameAndPort
    (Authority.canonicalAuthorityUrlComponents authority2) = val host2 ->
  In host1 (Constants.EnvironmentAliases K) ->
  In host2 (Constants.EnvironmentAliases K) ->
  createAccount K ICrypto buildClientInfo
    clientInfo authority1 idToken policy crypto
  = createAccount K ICrypto buildClientInfo
      clientInfo authority2 idToken policy crypto.
Proof.
  intros H1 H2 I1 I2.
  unfold createAccount; rewrite H1, H2.
  rewrite (proj2 (includes_In _ _) I1), (proj2 (includes_In _ _) I2).
  reflexivity.
Qed.

Lemma createAccount_alias_hosts_same_outcome_witness :
  In "login.windows.net" (Constants.EnvironmentAliases Sample.constants)
  /\ In "login.microsoftonline.com"
       (Constants.EnvironmentAliases Sample.constants)
  /\ createAccount Sample.constants unit Sample.buildClientInfo
       (val "blob") (Sample.authority "login.windows.net")
       (Sample.token Sample.fullClaims) null tt
     = createAccount Sample.constants unit Sample.buildClientInfo
         (val "blob") (Sample.authority "login.microsoftonline.com")
         (Sample.token Sample.fullClaims) null tt.
Proof.
  split; [simpl; tauto|]. split; [simpl; tauto|].
  apply (createAccount_alias_hosts_same_outcome Sample.constants unit
           Sample.buildClientInfo (val "blob")
           (Sample.authority "login.windows.net")
           (Sample.authority "login.microsoftonline.com")
           (Sample.token Sample.fullClaims) null tt
           "login.windows.net" "login.microsoftonline.com");
    first [reflexivity | simpl; tauto].
Defined.

(** X11: environment normalization is idempotent, whether or not the
    preferred host is itself listed as an alias: building the account again
    from an authority whose host is the environment of the first record
    gives the same record. *)
Theorem createAccount_environment_idempotent
    (K : Constants.t) (ICrypto : Type)
    (buildClientInfo : js string -> ICrypto -> result ClientInfo.t)
    (clientInfo : js string) (authority : Authority.t) (tok : IdToken.t)
    (policy : js string) (crypto : ICrypto) (obj : ClientInfo.t) :
  buildClientInfo clientInfo crypto = Ok obj ->
  exists r,
    createAccount K ICrypto buildClientInfo
      clientInfo authority (val tok) policy crypto = Ok r
    /\ createAccount K ICrypto buildClientInfo
         clientInfo (Authority.withHost (environment r)) (val tok)
         policy crypto = Ok r.
Proof.
  intros Hobj.
  unfold createAccount; rewrite Hobj; simpl.
  eexists; split; [reflexivity|]; simpl.
  destruct (includes (Constants.EnvironmentAliases K)
              (Authority.HostNameAndPort
                 (Authority.canonicalAuthorityUrlComponents authority)))
    eqn:E.
  - now destruct (includes (Constants.EnvironmentAliases K)
                    (val (Constants.PreferredCacheEnvironment K))).
  - now rewrite E.
Qed.

Lemma createAccount_environment_idempotent_witness :
  Sample.buildClientInfo (val "blob") tt
  = Ok {| ClientInfo.uid := val "Uid"; ClientInfo.utid := val "Utid" |}
  /\ exists r,
       createAccount Sample.constants unit Sample.buildClientInfo
         (val "blob") (Sample.authority "login.windows.net")
         (val {| IdToken.claims := Sample.fullClaims |}) null tt = Ok r
       /\ createAccount Sample.constants unit Sample.buildClientInfo
            (val "blob") (Authority.withHost (environment r))
            (val {| IdToken.claims := Sample.fullClaims |}) null tt = Ok r.
Proof.
  split; [reflexivity|].
  apply (createAccount_environment_idempotent Sample.constants unit
           Sample.buildClientInfo (val "blob")
           (Sample.authority "login.windows.net")
           {| IdToken.claims := Sample.fullClaims |} null tt
           {| ClientInfo.uid := val "Uid"; ClientInfo.utid := val "Utid" |}).
  reflexivity.
Defined.

Lemma environment_unchanged_off_alias_set_witness :
  Sample.buildClientInfo (val "blob") tt
  = Ok {| ClientInfo.uid := val "Uid"; ClientInfo.utid := val "Utid" |}
  /\ caseVariant "Login.Windows.Net" "login.windows.net"
  /\ ~ In "Login.Windows.Net" (Constants.EnvironmentAliases Sample.constants)
  /\ exists r,
       createAccount Sample.constants unit Sample.buildClientInfo
         (val "blob") (Sample.authority "Login.Windows.Net")
         (val {| IdToken.claims := Sample.fullClaims |}) null tt = Ok r
       /\ environment r = val "Login.Windows.Net".
Proof.
  assert (N : ~ In "Login.Windows.Net"
                (Constants.EnvironmentAliases Sample.constants)).
  { simpl; intros [E|[E|[]]]; discriminate. }
  split; [reflexivity|]. split; [reflexivity|]. split; [exact N|].
  apply (environment_unchanged_off_alias_set Sample.constants unit
           Sample.buildClientInfo (val "blob")
           (Sample.authority "Login.Windows.Net")
           {| IdToken.claims := Sample.fullClaims |} null tt
           {| ClientInfo.uid := val "Uid"; ClientInfo.utid := val "Utid" |}
           "Login.Windows.Net");
    [reflexivity | reflexivity | exact N].
Defined.

(** X13: a constructed record never classifies as unknown: with distinct
    account type names, generateType gives the MSSTS number for a record of
    createAccount and the ADFS number for a record of createADFSAccount,
    and writes nothing to the console. *)
Theorem constructed_records_classify
    (K : Constants.t) (ICrypto : Type)
    (buildClientInfo : js string -> ICrypto -> result ClientInfo.t)
    (clientInfo : js string) (authority : Authority.t) (tok : IdToken.t)
    (policy : js string) (crypto : ICrypto) (obj : ClientInfo.t) :
  buildClientInfo clientInfo crypto = Ok obj ->
  NoDup (Constants.accountTypes K) ->
  (exists r,
     createAccount K ICrypto buildClientInfo
       clientInfo authority (val tok) policy crypto = Ok r
     /\ generateType K r = (val (Constants.MSSTS K), []))
  /\ (exists r,
        createADFSAccount K authority (val tok) = Ok r
        /\ generateType K r = (val (Constants.ADFS K), [])).
Proof.
  intros Hobj ND.
  destruct (accountTypes_distinct K ND) as (_ & D2 & _ & D4 & _).
  split.
  - destruct (createAccount_present K ICrypto buildClientInfo clientInfo
                authority tok policy crypto obj Hobj)
      as (r & Hr & Hty & _).
    exists r; split; [exact Hr|].
    unfold generateType; rewrite Hty.
    rewrite (strictEqStr_val_neq _ _ (not_eq_sym D2)),
            (strictEqStr_val_neq _ _ (not_eq_sym D4)).
    simpl; now rewrite String.eqb_refl.
  - destruct (createADFSAccount_present K authority tok)
      as (r & Hr & Hty & _).
    exists r; split; [exact Hr|].
    unfold generateType; rewrite Hty.
    simpl; now rewrite String.eqb_refl.
Qed.

Lemma constructed_records_classify_witness :
  Sample.buildClientInfo (val "blob") tt
  = Ok {| ClientInfo.uid := val "Uid"; ClientInfo.utid := val "Utid" |}
  /\ NoDup (Constants.accountTypes Sample.constants)
  /\ (exists r,
        createAccount Sample.constants unit Sample.buildClientInfo
          (val "blob") (Sample.authority "login.windows.net")
          (val {| IdToken.claims := Sample.bareClaims |}) undefined tt = Ok r
        /\ generateType Sample.constants r = (val 1003%Z, []))
  /\ (exists r,
        createADFSAccount Sample.constants
          (Sample.authority "login.windows.net")
          (val {| IdToken.claims := Sample.bareClaims |}) = Ok r
        /\ generateType Sample.constants r = (val 1001%Z, [])).
Proof.
  assert (ND : NoDup (Constants.accountTypes Sample.constants)).
  { unfold Constants.accountTypes; simpl.
    repeat constructor; simpl; intuition discriminate. }
  split; [reflexivity|]. split; [exact ND|].
  apply (constructed_records_classify Sample.constants unit
           Sample.buildClientInfo (val "blob")
           (Sample.authority "login.windows.net")
           {| IdToken.claims := Sample.bareClaims |} undefined tt
           {| ClientInfo.uid := val "Uid"; ClientInfo.utid := val "Utid" |});
    [reflexivity | exact ND].
Defined.

(** X14: the account key of a record built by createAccount with a null
    policy, from decoded strings uid and utid and an authority host, is the
    lower case of uid + clientInfoSeparator + utid, the normalized host and
    the tid claim (nothing when the claim is absent) joined with the
    cache-key separator. *)
Theorem createAccount_key_from_inputs
    (K : Constants.t) (ICrypto : Type)
    (buildClientInfo : js string -> ICrypto -> result ClientInfo.t)
    (clientInfo : js string) (authority : Authority.t) (tok : IdToken.t)
    (crypto : ICrypto) (uid utid host : string) :
  buildClientInfo clientInfo crypto
  = Ok {| ClientInfo.uid := val uid; ClientInfo.utid := val utid |} ->
  Authority.HostNameAndPort
    (Authority.canonicalAuthorityUrlComponents authority) = val host ->
  exists r,
    createAccount K ICrypto buildClientInfo
      clientInfo authority (val tok) null crypto = Ok r
    /\ generateAccountKey K r
       = toLowerCase
           (String.concat (Constants.CACHE_KEY_SEPARATOR K)
              [uid ++ Constants.CLIENT_INFO_SEPARATOR K ++ utid;
               if includes (Constants.EnvironmentAliases K) (val host)
               then Constants.PreferredCacheEnvironment K else host;
               joinElem (IdToken.tid (IdToken.claims tok))]).
Proof.
  intros Hobj Hhost.
  destruct (createAccount_present K ICrypto buildClientInfo clientInfo
              authority tok null crypto _ Hobj)
    as (r & Hr & _ & _ & Hhome & Henv & Hrealm & _).
  exists r; split; [exact Hr|].
  unfold generateAccountKey, generateAccountCacheKey; simpl.
  rewrite Hhome, Henv, Hrealm, Hhost, !joinElem_orEmpty; simpl.
  now destruct (includes (Constants.EnvironmentAliases K) (val host)).
Qed.

Lemma createAccount_key_from_inputs_witness :
  Sample.buildClientInfo (val "blob") tt
  = Ok {| ClientInfo.uid := val "Uid"; ClientInfo.utid := val "Utid" |}
  /\ exists r,
       createAccount Sample.constants unit Sample.buildClientInfo
         (val "blob") (Sample.authority "login.windows.net")
         (val {| IdToken.claims := Sample.bareClaims |}) null tt = Ok r
       /\ generateAccountKey Sample.constants r
          = "uid:utid-login.microsoftonline.com-".
Proof.
  split; [reflexivity|].
  apply (createAccount_key_from_inputs Sample.constants unit
           Sample.buildClientInfo (val "blob")
           (Sample.authority "login.windows.net")
           {| IdToken.claims := Sample.bareClaims |} tt
           "Uid" "Utid" "login.windows.net");
    reflexivity.
Defined.

(** X15: a record built by createADFSAccount has no realm, so its account
    key is its account id followed by the lower-cased separator, and the
    account id is the lower case of the sub claim, the separator and the
    authority host (absent ones counting as empty). *)
Theorem createADFSAccount_key_ends_in_separator
    (K : Constants.t) (authority : Authority.t) (tok : IdToken.t) :
  exists r,
    createADFSAccount K authority (val tok) = Ok r
    /\ generateAccountKey K r
       = generateAccountId K r ++ toLowerCase (Constants.CACHE_KEY_SEPARATOR K)
    /\ generateAccountId K r
       = toLowerCase
           (joinElem (IdToken.sub (IdToken.claims tok))
            ++ Constants.CACHE_KEY_SEPARATOR K
            ++ joinElem (Authority.HostNameAndPort
                           (Authority.canonicalAuthorityUrlComponents
                              authority))).
Proof.
  destruct (createADFSAccount_present K authority tok)
    as (r & Hr & _ & Hhome & Henv & _ & Hrealm & _).
  exists r; split; [exact Hr|].
  unfold generateAccountKey, generateAccountCacheKey, generateAccountId; simpl.
  rewrite Hhome, Henv, Hrealm, !joinElem_orEmpty; simpl.
  split; [|reflexivity].
  rewrite !toLowerCase_app; simpl.
  now rewrite append_empty_r, !append_assoc.
Qed.

(** X16: the policy affects the home account id and nothing else: the
    record built with a policy other than null (a string, or undefined) is
    the record built with a null policy with the cache-key separator and
    the policy text appended to its homeAccountId. *)
Theorem createAccount_policy_only_suffixes_homeAccountId
    (K : Constants.t) (ICrypto : Type)
    (buildClientInfo : js string -> ICrypto -> result ClientInfo.t)
    (clientInfo : js string) (authority : Authority.t) (tok : IdToken.t)
    (policy : js string) (crypto : ICrypto) (obj : ClientInfo.t) :
  buildClientInfo clientInfo crypto = Ok obj ->
  notNull policy = true ->
  exists r0,
    createAccount K ICrypto buildClientInfo
      clientInfo authority (val tok) null crypto = Ok r0
    /\ createAccount K ICrypto buildClientInfo
         clientInfo authority (val tok) policy crypto
       = Ok (set_homeAccountId r0
               (val ((joinElem (homeAccountId r0)
                      ++ Constants.CACHE_KEY_SEPARATOR K)
                     ++ toString policy))).
Proof.
  intros Hobj Hp.
  unfold createAccount; rewrite Hobj, Hp; simpl.
  eexists; split; reflexivity.
Qed.

Lemma createAccount_policy_only_suffixes_homeAccountId_witness :
  Sample.buildClientInfo (val "blob") tt
  = Ok {| ClientInfo.uid := val "Uid"; ClientInfo.utid := val "Utid" |}
  /\ notNull (val "") = true
  /\ exists r0,
       createAccount Sample.constants unit Sample.buildClientInfo
         (val "blob") (Sample.authority "login.windows.net")
         (val {| IdToken.claims := Sample.fullClaims |}) null tt = Ok r0
       /\ createAccount Sample.constants unit Sample.buildClientInfo
            (val "blob") (Sample.authority "login.windows.net")
            (val {| IdToken.claims := Sample.fullClaims |}) (val "") tt
          = Ok (set_homeAccountId r0
                  (val ((joinElem (homeAccountId r0) ++ "-") ++ ""))).
Proof.
  split; [reflexivity|]. split; [reflexivity|].
  apply (createAccount_policy_only_suffixes_homeAccountId Sample.constants
           unit Sample.buildClientInfo (val "blob")
           (Sample.authority "login.windows.net")
           {| IdToken.claims := Sample.fullClaims |} (val "") tt
           {| ClientInfo.uid := val "Uid"; ClientInfo.utid := val "Utid" |});
    reflexivity.
Defined.

(** X17: the public view of a constructed record: for createAccount its
    tenantId is the token's tid claim and its username the
    preferred_username claim; for createADFSAccount it is the sub claim,
    the authority host, no tenantId, and the upn claim. *)
Theorem getAccountInfo_of_constructed_record
    (K : Constants.t) (ICrypto : Type)
    (buildClientInfo : js string -> ICrypto -> result ClientInfo.t)
    (clientInfo : js string) (authority : Authority.t) (tok : IdToken.t)
    (policy : js string) (crypto : ICrypto) (obj : ClientInfo.t) :
  buildClientInfo clientInfo crypto = Ok obj ->
  (exists r,
     createAccount K ICrypto buildClientInfo
       clientInfo authority (val tok) policy crypto = Ok r
     /\ getAccountInfo r
        = AccountInfo.make (homeAccountId r) (environment r)
            (IdToken.tid (IdToken.claims tok))
            (IdToken.preferred_username (IdToken.claims tok)))
  /\ (exists r,
        createADFSAccount K authority (val tok) = Ok r
        /\ getAccountInfo r
           = AccountInfo.make
               (IdToken.sub (IdToken.claims tok))
               (Authority.HostNameAndPort
                  (Authority.canonicalAuthorityUrlComponents authority))
               undefined
               (IdToken.upn (IdToken.claims tok))).
Proof.
  intros Hobj; split.
  - destruct (createAccount_present K ICrypto buildClientInfo clientInfo
                authority tok policy crypto obj Hobj)
      as (r & Hr & _ & _ & _ & _ & Hrealm & _ & Huser & _).
    exists r; split; [exact Hr|].
    unfold getAccountInfo; now rewrite Hrealm, Huser.
  - destruct (createADFSAccount_present K authority tok)
      as (r & Hr & _ & Hhome & Henv & Huser & Hrealm & _).
    exists r; split; [exact Hr|].
    unfold getAccountInfo; now rewrite Hhome, Henv, Hrealm, Huser.
Qed.

Lemma getAccountInfo_of_constructed_record_witness :
  Sample.buildClientInfo (val "blob") tt
  = Ok {| ClientInfo.uid := val "Uid"; ClientInfo.utid := val "Utid" |}
  /\ exists r,
       createADFSAccount Sample.constants
         (Sample.authority "adfs.contoso.com")
         (val {| IdToken.claims := Sample.fullClaims |}) = Ok r
       /\ getAccountInfo r
          = AccountInfo.make (val "subject-1") (val "adfs.contoso.com")
              undefined (val "ada@contoso.com").
Proof.
  split; [reflexivity|].
  apply (getAccountInfo_of_constructed_record Sample.constants unit
           Sample.buildClientInfo (val "blob")
           (Sample.authority "adfs.contoso.com")
           {| IdToken.claims := Sample.fullClaims |} null tt
           {| ClientInfo.uid := val "Uid"; ClientInfo.utid := val "Utid" |}).
  reflexivity.
Defined.

(** X18: the identity token enters the keys of a createAccount record only
    through its tid claim: records built from any two tokens, with otherwise
    equal arguments, have the same account id, and the same account key as
    soon as the two tid claims agree. *)
Theorem createAccount_keys_depend_on_token_tid_only
    (K : Constants.t) (ICrypto : Type)
    (buildClientInfo : js string -> ICrypto -> result ClientInfo.t)
    (clientInfo : js string) (authority : Authority.t)
    (tok1 tok2 : IdToken.t)
    (policy : js string) (crypto : ICrypto) (obj : ClientInfo.t) :
  buildClientInfo clientInfo crypto = Ok obj ->
  exists r1 r2,
    createAccount K ICrypto buildClientInfo
      clientInfo authority (val tok1) policy crypto = Ok r1
    /\ createAccount K ICrypto buildClientInfo
         clientInfo authority (val tok2) policy crypto = Ok r2
    /\ generateAccountId K r1 = generateAccountId K r2
    /\ (IdToken.tid (IdToken.claims tok1) = IdToken.tid (IdToken.claims tok2)
        -> generateAccountKey K r1 = generateAccountKey K r2).
Proof.
  intros Hobj.
  destruct (createAccount_present K ICrypto buildClientInfo clientInfo
              authority tok1 policy crypto obj Hobj)
    as (r1 & Hr1 & _ & _ & Hhome1 & Henv1 & Hrealm1 & _).
  destruct (createAccount_present K ICrypto buildClientInfo clientInfo
              authority tok2 policy crypto obj Hobj)
    as (r2 & Hr2 & _ & _ & Hhome2 & Henv2 & Hrealm2 & _).
  exists r1, r2.
  split; [exact Hr1|]. split; [exact Hr2|].
  assert (Hid : generateAccountId K r1 = generateAccountId K r2).
  { unfold generateAccountId; now rewrite Hhome1, Hhome2, Henv1, Henv2. }
  split; [exact Hid|].
  intros Htid.
  unfold generateAccountKey, generateAccountCacheKey; simpl.
  now rewrite Hhome1, Hhome2, Henv1, Henv2, Hrealm1, Hrealm2, Htid.
Qed.

Lemma createAccount_keys_depend_on_token_tid_only_witness :
  Sample.buildClientInfo (val "blob") tt
  = Ok {| ClientInfo.uid := val "Uid"; ClientInfo.utid := val "Utid" |}
  /\ Sample.fullClaims <> Sample.sidOnlyClaims
  /\ exists r1 r2,
       createAccount Sample.constants unit Sample.buildClientInfo
         (val "blob") (Sample.authority "login.windows.net")
         (val {| IdToken.claims := Sample.fullClaims |}) null tt = Ok r1
       /\ createAccount Sample.constants unit Sample.buildClientInfo
            (val "blob") (Sample.authority "login.windows.net")
            (val {| IdToken.claims := Sample.sidOnlyClaims |}) null tt = Ok r2
       /\ generateAccountId Sample.constants r1
          = generateAccountId Sample.constants r2
       /\ (val "tenant-1" = val "tenant-1"
           -> generateAccountKey Sample.constants r1
              = generateAccountKey Sample.constants r2).
Proof.
  split; [reflexivity|]. split; [discriminate|].
  apply (createAccount_keys_depend_on_token_tid_only Sample.constants unit
           Sample.buildClientInfo (val "blob")
           (Sample.authority "login.windows.net")
           {| IdToken.claims := Sample.fullClaims |}
           {| IdToken.claims := Sample.sidOnlyClaims |} null tt
           {| ClientInfo.uid := val "Uid"; ClientInfo.utid := val "Utid" |}).
  reflexivity.
Defined.

Lemma append_cancel_l (s a b : string) : s ++ a = s ++ b -> a = b.
Proof.
  induction s as [|c s IH]; simpl; intros E.
  - exact E.
  - injection E as E; exact (IH E).
Qed.

(** X19: createADFSAccount keeps hosts apart: for one token and two
    authority hosts, the account ids of the two records coincide exactly
    when the hosts are case variants of each other, alias hosts included. *)
Theorem createADFSAccount_ids_coincide_iff_hosts_case_variants
    (K : Constants.t) (tok : IdToken.t) (host1 host2 : string) :
  exists r1 r2,
    createADFSAccount K (Authority.withHost (val host1)) (val tok) = Ok r1
    /\ createADFSAccount K (Authority.withHost (val host2)) (val tok) = Ok r2
    /\ (generateAccountId K r1 = generateAccountId K r2
        <-> caseVariant host1 host2).
Proof.
  destruct (createADFSAccount_present K (Authority.withHost (val host1)) tok)
    as (r1 & Hr1 & _ & Hhome1 & Henv1 & _).
  destruct (createADFSAccount_present K (Authority.withHost (val host2)) tok)
    as (r2 & Hr2 & _ & Hhome2 & Henv2 & _).
  exists r1, r2.
  split; [exact Hr1|]. split; [exact Hr2|].
  unfold generateAccountId, caseVariant.
  rewrite Hhome1, Hhome2, Henv1, Henv2; simpl.
  rewrite !toLowerCase_app.
  split.
  - intros E. apply append_cancel_l in E. now apply append_cancel_l in E.
  - now intros ->.
Qed.
